(** * tronctl root command (cmd/subcommands/root.go)

    A shallow embedding of the root command of the [tronctl] command line
    controller: the package-level variables, the pre-run hook, the address
    lookup, the transaction-controller options, the release check and the
    top-level entry point.

    Go strings are byte strings ([string]); [uint32] values are [N]; the
    package variables and everything the process does to the outside world
    are threaded through an explicit state; a call that panics or exits the
    process is an [Outcome] of its own. *)

From Stdlib Require Import String Ascii List NArith ZArith Bool Lia.
Import ListNotations.

Local Open Scope list_scope.
Local Open Scope string_scope.

(* ===================================================================== *)
(** * Strings *)
(* ===================================================================== *)

(** The newline byte, written [\n] in the Go source. *)
Definition nl : string := String (ascii_of_nat 10) EmptyString.

(** [c] occurs in [s]. *)
Fixpoint occurs (c : ascii) (s : string) : Prop :=
  match s with
  | EmptyString => False
  | String a s' => a = c \/ occurs c s'
  end.

(** Boolean test for [occurs]. *)
Fixpoint occursb (c : ascii) (s : string) : bool :=
  match s with
  | EmptyString => false
  | String a s' => Ascii.eqb a c || occursb c s'
  end.

(** [strings.Contains(s, substr)]: [substr] starts at some position of [s]. *)
Fixpoint Contains (s substr : string) : bool :=
  prefix substr s ||
  match s with
  | EmptyString => false
  | String _ s' => Contains s' substr
  end.

(** Pushes a byte on the first piece of a split. *)
Definition cons_head (c : ascii) (l : list string) : list string :=
  match l with
  | h :: t => String c h :: t
  | [] => [String c EmptyString]
  end.

(** Splitting at every occurrence of a non-empty separator, left to right,
    occurrences not overlapping; [skip] bytes of a separator just matched are
    still to be passed over. *)
Fixpoint splitFrom (sep : string) (skip : nat) (s : string) : list string :=
  match s with
  | EmptyString => [EmptyString]
  | String c s' =>
      match skip with
      | S k => splitFrom sep k s'
      | O =>
          if prefix sep s
          then EmptyString :: splitFrom sep (String.length sep - 1) s'
          else cons_head c (splitFrom sep 0 s')
      end
  end.

(** [strings.Split(s, sep)].  With a non-empty separator the result has one
    more piece than [s] has occurrences of [sep].  With an empty separator Go
    cuts after every UTF-8 sequence; both call sites of the program pass a
    one-byte separator, and the empty case is given here for single-byte
    characters only. *)
Definition Split (s sep : string) : list string :=
  match sep with
  | EmptyString => map (fun c => String c EmptyString) (list_ascii_of_string s)
  | _ => splitFrom sep 0 s
  end.

(** The slice expression [s[:n]] on a string: a run-time fault (no result)
    when [n] exceeds the length in bytes. *)
Definition slice_to (n : nat) (s : string) : option string :=
  if Nat.leb n (String.length s) then Some (substring 0 n s) else None.

(** The index expression [l[i]] on a slice: a run-time fault (no result)
    when [i] is out of range. *)
Definition index_at {A : Type} (l : list A) (i : nat) : option A :=
  nth_error l i.

(* ===================================================================== *)
(** * Data *)
(* ===================================================================== *)

(** A Go [error], by its [Error()] text. *)
Definition error : Type := string.

(** [tronAddress]: a struct of one string field, built as [tronAddress{acc}]
    by [findAddress]. *)
Record tronAddress : Type := mkTronAddress { address : string }.

(** The zero value [tronAddress{}]. *)
Definition zeroAddress : tronAddress := mkTronAddress EmptyString.

(** [GitHubReleaseAssets] json struct. *)
Record GitHubReleaseAssets : Type := mkAsset {
  asset_ID   : string;
  asset_Name : string;
  asset_Size : string;
  asset_URL  : string
}.

(** [GitHubRelease] json struct; [CreatedAt] is kept as the text decoded. *)
Record GitHubRelease : Type := mkRelease {
  Prerelease      : bool;
  TagName         : string;
  TargetCommitish : string;
  CreatedAt       : string;
  Assets          : list GitHubReleaseAssets
}.

(** [GitHubTag] json struct; [SHA] is the field [DATA.SHA]. *)
Record GitHubTag : Type := mkTag {
  Ref    : string;
  NodeID : string;
  URL    : string;
  SHA    : string
}.

(** What the program looks at in a [*http.Response]. *)
Record Response : Type := mkResponse {
  StatusCode : Z;
  Body       : string
}.

(** Modelled from the spec: the type [transaction.Controller] is declared in
    package [pkg/client/transaction], outside the source at hand.  The spec
    describes a controller accepting a dry-run flag, a signing-implementation
    selector and a confirmation-wait duration; [opts] reaches them as
    [ctlr.Behavior.DryRun], [ctlr.Behavior.SigningImpl] and
    [ctlr.Behavior.ConfirmationWaitTime], and assigns the [uint32] timeout
    to the last without conversion.  [Ledger] is the selector [opts] assigns
    and [Software] stands for the other one.  Everything else a controller
    holds is the field [rest]. *)
Inductive SignerImpl : Type := Software | Ledger.

Record behavior : Type := mkBehavior {
  DryRun               : bool;
  SigningImpl          : SignerImpl;
  ConfirmationWaitTime : N
}.

Record Controller (R : Type) : Type := mkController {
  Behavior : behavior;
  rest     : R
}.

Arguments mkController {R} _ _.
Arguments Behavior {R} _.
Arguments rest {R} _.

(** The part of [cobra.Command] that [root.go] sets on [RootCmd]. *)
Record Command : Type := mkCommand {
  Use           : string;
  Short         : string;
  SilenceUsage  : bool;
  SilenceErrors : bool
}.

(** What the process does to the outside world, in order. *)
Inductive Event : Type :=
| EvEnableAllVerbose
| EvGrpcStart (endpoint : string)
| EvStoreLookup (name : string)
| EvHttpGet (url : string)
| EvBodyClose (url : string)
| EvStderr (text : string).

(** Run-time faults of the Go runtime. *)
Inductive panic : Type :=
| NilDereference
| SliceBoundsOutOfRange
| IndexOutOfRange.

(** How a call ends: it returns, it panics, or it ends the process with
    [os.Exit]. *)
Inductive Outcome (A : Type) : Type :=
| Returned (a : A)
| Panicked (p : panic)
| Exited (code : Z).

Arguments Returned {A} _.
Arguments Panicked {A} _.
Arguments Exited {A} _.

(** Exit status of a process whose [main] ends with the given outcome: 0 on
    return, the argument of [os.Exit], 2 for a panic nobody recovers. *)
Definition exitStatus {A : Type} (o : Outcome A) : Z :=
  match o with
  | Returned _ => 0%Z
  | Panicked _ => 2%Z
  | Exited c => c
  end.

(** The package-level variables of [root.go] and the trace of events. *)
Record State : Type := mkState {
  addr            : tronAddress;
  signer          : string;
  signerAddress   : tronAddress;
  verbose         : bool;
  dryRun          : bool;
  useLedgerWallet : bool;
  noPrettyOutput  : bool;
  node            : string;
  keyStoreDir     : string;
  givenFilePath   : string;
  timeout         : N;
  conn            : option string;
  RootCmd         : Command;
  VersionWrapDump : string;
  trace           : list Event
}.

Definition set_addr (a : tronAddress) (st : State) : State :=
  mkState a (signer st) (signerAddress st) (verbose st) (dryRun st)
    (useLedgerWallet st) (noPrettyOutput st) (node st) (keyStoreDir st)
    (givenFilePath st) (timeout st) (conn st) (RootCmd st)
    (VersionWrapDump st) (trace st).

Definition set_signerAddress (a : tronAddress) (st : State) : State :=
  mkState (addr st) (signer st) a (verbose st) (dryRun st)
    (useLedgerWallet st) (noPrettyOutput st) (node st) (keyStoreDir st)
    (givenFilePath st) (timeout st) (conn st) (RootCmd st)
    (VersionWrapDump st) (trace st).

Definition set_node (n : string) (st : State) : State :=
  mkState (addr st) (signer st) (signerAddress st) (verbose st) (dryRun st)
    (useLedgerWallet st) (noPrettyOutput st) n (keyStoreDir st)
    (givenFilePath st) (timeout st) (conn st) (RootCmd st)
    (VersionWrapDump st) (trace st).

Definition set_conn (c : option string) (st : State) : State :=
  mkState (addr st) (signer st) (signerAddress st) (verbose st) (dryRun st)
    (useLedgerWallet st) (noPrettyOutput st) (node st) (keyStoreDir st)
    (givenFilePath st) (timeout st) c (RootCmd st)
    (VersionWrapDump st) (trace st).

Definition set_RootCmd (c : Command) (st : State) : State :=
  mkState (addr st) (signer st) (signerAddress st) (verbose st) (dryRun st)
    (useLedgerWallet st) (noPrettyOutput st) (node st) (keyStoreDir st)
    (givenFilePath st) (timeout st) (conn st) c
    (VersionWrapDump st) (trace st).

Definition set_VersionWrapDump (v : string) (st : State) : State :=
  mkState (addr st) (signer st) (signerAddress st) (verbose st) (dryRun st)
    (useLedgerWallet st) (noPrettyOutput st) (node st) (keyStoreDir st)
    (givenFilePath st) (timeout st) (conn st) (RootCmd st)
    v (trace st).

Definition set_trace (t : list Event) (st : State) : State :=
  mkState (addr st) (signer st) (signerAddress st) (verbose st) (dryRun st)
    (useLedgerWallet st) (noPrettyOutput st) (node st) (keyStoreDir st)
    (givenFilePath st) (timeout st) (conn st) (RootCmd st)
    (VersionWrapDump st) t.

(** Appends one event to the trace. *)
Definition emit (e : Event) (st : State) : State :=
  set_trace (trace st ++ [e]) st.

(** Appends a run of events to the trace. *)
Definition emits (es : list Event) (st : State) : State :=
  set_trace (trace st ++ es) st.

(** What was written to standard error, in order. *)
Fixpoint stderr_of (t : list Event) : list string :=
  match t with
  | [] => []
  | EvStderr s :: t' => s :: stderr_of t'
  | _ :: t' => stderr_of t'
  end.

(** The URLs requested over HTTP, in order. *)
Fixpoint gets_of (t : list Event) : list string :=
  match t with
  | [] => []
  | EvHttpGet u :: t' => u :: gets_of t'
  | _ :: t' => gets_of t'
  end.

(** The account names looked up in the store, in order. *)
Fixpoint lookups_of (t : list Event) : list string :=
  match t with
  | [] => []
  | EvStoreLookup n :: t' => n :: lookups_of t'
  | _ :: t' => lookups_of t'
  end.

(* ===================================================================== *)
(** * Computations *)
(* ===================================================================== *)

(** A Go function body: from a state to an outcome and the state it leaves. *)
Definition M (A : Type) : Type := State -> Outcome A * State.

Definition ret {A : Type} (a : A) : M A := fun st => (Returned a, st).

Definition bind {A B : Type} (m : M A) (k : A -> M B) : M B :=
  fun st =>
    match m st with
    | (Returned a, st') => k a st'
    | (Panicked p, st') => (Panicked p, st')
    | (Exited c, st') => (Exited c, st')
    end.

Definition raise {A : Type} (p : panic) : M A := fun st => (Panicked p, st).

Definition exit {A : Type} (c : Z) : M A := fun st => (Exited c, st).

Definition get : M State := fun st => (Returned st, st).

Definition modify (f : State -> State) : M unit :=
  fun st => (Returned tt, f st).

Notation "x <- m ;; k" := (bind m (fun x => k))
  (at level 61, m at next level, right associativity).
Notation "m ;;; k" := (bind m (fun _ => k))
  (at level 61, right associativity).

(** [defer d] followed by the remainder [m] of the function: [d] runs when
    [m] returns and also while a panic of [m] unwinds; [os.Exit] runs no
    deferred call. *)
Definition defer {A : Type} (d : State -> State) (m : M A) : M A :=
  fun st =>
    match m st with
    | (Returned a, st') => (Returned a, d st')
    | (Panicked p, st') => (Panicked p, d st')
    | (Exited c, st') => (Exited c, st')
    end.

(* ===================================================================== *)
(** * The program *)
(* ===================================================================== *)

Definition defaultTimeout : N := 20.

Definition versionLink : string :=
  "https://api.github.com/repos/fbsobreira/gotron-sdk/releases/latest".

Definition versionTagLink : string :=
  "https://api.github.com/repos/fbsobreira/gotron-sdk/git/ref/tags/".

(** The literal assigned to [RootCmd]; [SilenceErrors] is not mentioned in
    it and has its zero value. *)
Definition RootCmd_literal : Command :=
  mkCommand "tronctl" "Tron Blokchain Controller " true false.

(** The package variables once [init] has registered the flags and before
    any argument is parsed: every flag at its default.  [defaultNodeAddr] is
    a constant declared elsewhere in the package. *)
Definition initState (defaultNodeAddr : string) : State :=
  mkState zeroAddress EmptyString zeroAddress false false false false
    defaultNodeAddr EmptyString EmptyString defaultTimeout None
    RootCmd_literal EmptyString [].

Definition set_SilenceErrors (b : bool) (c : Command) : Command :=
  mkCommand (Use c) (Short c) (SilenceUsage c) b.

Definition set_DryRun {R : Type} (b : bool) (c : Controller R) : Controller R :=
  mkController
    (mkBehavior b (SigningImpl (Behavior c))
       (ConfirmationWaitTime (Behavior c)))
    (rest c).

Definition set_SigningImpl {R : Type} (s : SignerImpl) (c : Controller R)
  : Controller R :=
  mkController
    (mkBehavior (DryRun (Behavior c)) s (ConfirmationWaitTime (Behavior c)))
    (rest c).

Definition set_ConfirmationWaitTime {R : Type} (t : N) (c : Controller R)
  : Controller R :=
  mkController
    (mkBehavior (DryRun (Behavior c)) (SigningImpl (Behavior c)) t)
    (rest c).

(** [opts]: reads the package variables [dryRun], [useLedgerWallet] and
    [timeout]; the controller mutated in place is the controller returned. *)
Definition opts {R : Type} (st : State) (ctlr : Controller R) : Controller R :=
  let ctlr := if dryRun st then set_DryRun true ctlr else ctlr in
  let ctlr := if useLedgerWallet st then set_SigningImpl Ledger ctlr else ctlr in
  let ctlr :=
    if (0 <? timeout st)%N
    then set_ConfirmationWaitTime (timeout st) ctlr
    else ctlr in
  ctlr.

(** The text of [errors.Wrapf(cause, format, args...).Error()], given the
    formatted message: the message, a colon and a space, the cause. *)
Definition Wrapf_Error (cause : error) (msg : string) : string :=
  msg ++ ": " ++ cause.

(** The warning of [getGitVersion]: the constant format
    ["Warning: Using outdated version. Redownload to upgrade to %s\n"] with a
    string operand. *)
Definition warnMsg (tag : string) : string :=
  "Warning: Using outdated version. Redownload to upgrade to " ++ tag ++ nl.

(** The message of [findAddress]: the constant format
    ["Invalid address/Invalid account name: %s"] with a string operand. *)
Definition invalidMsg (value : string) : string :=
  "Invalid address/Invalid account name: " ++ value.

Definition hintLine : string := "try adding a `--help` flag" ++ nl.

(* ===================================================================== *)
(** * Sample surroundings *)
(* ===================================================================== *)

(** Concrete surroundings on which the program is run in the examples: an
    address book of one entry, a network answering the two endpoints, and
    decoders for bodies that hold the tag name and the commit hash alone. *)
Module Sample.

Definition aliceAddress : string := "TJRabPrwbZy45sbavfcjinPJC18kjpRTv8".

Definition parse (a : tronAddress) (s : string) : tronAddress * option error :=
  if String.eqb s aliceAddress
  then (mkTronAddress s, None)
  else (a, Some "not a valid address").

Definition lookup (name : string) : string * option error :=
  if String.eqb name "alice"
  then (aliceAddress, None)
  else (EmptyString, Some "no such account").

Definition start_ok (endpoint : string) : option error := None.

Definition decodeRelease (body : string) : error + GitHubRelease :=
  inr (mkRelease false body "master" "2020-01-01T00:00:00Z" []).

Definition decodeTag (body : string) : error + GitHubTag :=
  inr (mkTag "refs/tags/v2" "node" "url" body).

(** No network: every request fails before a response exists. *)
Definition offline (url : string) : option Response := None.

(** The release endpoint answers 404. *)
Definition notFound (url : string) : option Response :=
  Some (mkResponse 404 "Not Found").

(** Latest release [v2], whose tag points at the commit [sha]. *)
Definition online (sha : string) (url : string) : option Response :=
  if String.eqb url versionLink then Some (mkResponse 200 "v2")
  else if String.eqb url (versionTagLink ++ "v2") then Some (mkResponse 200 sha)
  else None.

Definition plain (s : string) : string := s.

(** A root command that fails with the given error and does nothing else. *)
Definition failing (e : error) : M (option error) :=
  fun st => (Returned (Some e), st).

(** A root command that succeeds and does nothing else. *)
Definition succeeding : M (option error) :=
  fun st => (Returned None, st).

(** The flags at their defaults and the given build stamp. *)
Definition stamped (stamp : string) : State :=
  set_VersionWrapDump stamp (initState "grpc.trongrid.io:50051").

(** Timeout flag 0, the other flags at their defaults. *)
Definition noWait : State :=
  mkState zeroAddress EmptyString zeroAddress false false false false
    "grpc.trongrid.io:50051" EmptyString EmptyString 0%N None
    RootCmd_literal EmptyString [].

(** A controller that already waits five seconds for confirmation. *)
Definition patient : Controller unit :=
  mkController (mkBehavior false Software 5%N) tt.

(** The flags at their defaults, the node given without a port. *)
Definition bareNode : State := set_node "localhost" (initState "grpc.trongrid.io:50051").

(** A node that refuses the connection. *)
Definition start_refused (endpoint : string) : option error :=
  Some "connection refused".

(** A decoder that rejects every body. *)
Definition undecodable {A : Type} (body : string) : error + A :=
  inl "unexpected end of JSON input".

(** The release endpoint answers; the tag endpoint cannot be reached. *)
Definition releaseOnly (url : string) : option Response :=
  if String.eqb url versionLink then Some (mkResponse 200 "v2") else None.

(** The flags at their defaults but for the signer. *)
Definition signedBy (s : string) : State :=
  mkState zeroAddress s zeroAddress false false false false
    "grpc.trongrid.io:50051" EmptyString EmptyString defaultTimeout None
    RootCmd_literal EmptyString [].

(** Dry run and ledger requested, a timeout of 30 seconds. *)
Definition allSet : State :=
  mkState zeroAddress EmptyString zeroAddress false true true false
    "grpc.trongrid.io:50051" EmptyString EmptyString 30%N None
    RootCmd_literal EmptyString [].

(** No flag that [opts] reads is set. *)
Definition noneSet : State :=
  mkState zeroAddress EmptyString zeroAddress false false false false
    "grpc.trongrid.io:50051" EmptyString EmptyString 0%N None
    RootCmd_literal EmptyString [].

(** A controller with dry run on, signing through the ledger. *)
Definition cautious : Controller unit :=
  mkController (mkBehavior true Ledger 0%N) tt.


(** The escape sequences of a terminal for red and for the end of it. *)
Definition redOn : string := String (ascii_of_nat 27) "[31m".
Definition redOff : string := String (ascii_of_nat 27) "[0m".

(** Colouring in red by wrapping in escape sequences. *)
Definition red (s : string) : string := redOn ++ s ++ redOff.


End Sample.

Section Program.

(** ** What the program calls outside [root.go] *)

(** The method [Set] of [tronAddress] (pointer receiver): from the
    receiver before the call and the text, the receiver after the call and
    the error returned. *)
Variable tronAddress_Set : tronAddress -> string -> tronAddress * option error.

(** [store.AddressFromAccountName]. *)
Variable AddressFromAccountName : string -> string * option error.

(** [conn.Start()] on a client made by [client.NewGrpcClient(endpoint)]. *)
Variable grpcStart : string -> option error.

(** [http.Get], as the program sees it: the error is dropped and only the
    response pointer is kept, [None] being the nil pointer that net/http
    returns when the request could not be carried out. *)
Variable http_get : string -> option Response.

(** [json.Unmarshal] into a fresh [GitHubRelease] and a fresh [GitHubTag]. *)
Variable unmarshalRelease : string -> error + GitHubRelease.
Variable unmarshalTag : string -> error + GitHubTag.

(** What package fmt produces from a format string given no operand: the
    string itself when it holds no percent sign. *)
Variable Sprintf0 : string -> string.

(** [color.RedString] given no operand. *)
Variable RedString : string -> string.

(** [RootCmd.Execute()]: the framework parsing the arguments and running
    the hooks and the subcommand selected. *)
Variable cobraExecute : M (option error).

(** [fmt.Fprintf(os.Stderr, format)]. *)
Definition Fprintf_Stderr (format : string) : M unit :=
  modify (emit (EvStderr (Sprintf0 format))).

(** [fmt.Errorf(format)]. *)
Definition Errorf0 (format : string) : error := Sprintf0 format.

(** ** [findAddress] *)
Definition findAddress (value : string) : M (tronAddress * option error) :=
  let (address, err) := tronAddress_Set zeroAddress value in
  match err with
  | Some _ =>
      modify (emit (EvStoreLookup value)) ;;;
      let (acc, err') := AddressFromAccountName value in
      match err' with
      | None => ret (mkTronAddress acc, None)
      | Some _ => ret (address, Some (invalidMsg value))
      end
  | None => ret (address, None)
  end.

(** ** [validateAddress] *)
Definition validateAddress (args : list string) : M (option error) :=
  match index_at args 0 with
  | None => raise IndexOutOfRange
  | Some a0 =>
      r <- findAddress a0 ;;
      modify (set_addr (fst r)) ;;;
      ret (snd r)
  end.

(** ** [RootCmd.PersistentPreRunE] *)
Definition PersistentPreRunE : M (option error) :=
  st <- get ;;
  (if verbose st then modify (emit EvEnableAllVerbose) else ret tt) ;;;
  (match List.length (Split (node st) ":") with
   | 1 => modify (set_node (node st ++ ":50051"))
   | _ => ret tt
   end) ;;;
  st <- get ;;
  modify (set_conn (Some (node st))) ;;;
  modify (emit (EvGrpcStart (node st))) ;;;
  match grpcStart (node st) with
  | Some err => ret (Some err)
  | None =>
      if Nat.ltb 0 (String.length (signer st))
      then
        r <- findAddress (signer st) ;;
        modify (set_signerAddress (fst r)) ;;;
        match snd r with
        | Some err => ret (Some err)
        | None => ret None
        end
      else ret None
  end.

(** The endpoint after the [switch] statement of the hook. *)
Definition normalized (n : string) : string :=
  match List.length (Split n ":") with
  | 1 => n ++ ":50051"
  | _ => n
  end.

(** ** [getGitVersion] *)

(** The last statement of the function. *)
Definition couldNotFetch : M (string * option error) :=
  ret (EmptyString, Some "could not fetch version").

Definition getGitVersion : M (string * option error) :=
  modify (emit (EvHttpGet versionLink)) ;;;
  match http_get versionLink with
  | None =>
      (* [defer resp.Body.Close()] reads a field through the nil pointer *)
      raise NilDereference
  | Some resp =>
      defer (emit (EvBodyClose versionLink))
        (if (StatusCode resp =? 200)%Z
         then
           match unmarshalRelease (Body resp) with
           | inl err => ret (EmptyString, Some err)
           | inr release =>
               modify (emit (EvHttpGet (versionTagLink ++ TagName release))) ;;;
               (* the second [defer] closes [resp.Body] again *)
               defer (emit (EvBodyClose versionLink))
                 (match http_get (versionTagLink ++ TagName release) with
                  | Some respTag =>
                      if (StatusCode respTag =? 200)%Z
                      then
                        match unmarshalTag (Body respTag) with
                        | inl err => ret (EmptyString, Some err)
                        | inr releaseTag =>
                            st <- get ;;
                            let commit := Split (VersionWrapDump st) "-" in
                            match slice_to 8 (SHA releaseTag) with
                            | None => raise SliceBoundsOutOfRange
                            | Some sha8 =>
                                match index_at commit 1 with
                                | None => raise IndexOutOfRange
                                | Some commit1 =>
                                    if negb (String.eqb sha8 commit1)
                                    then
                                      Fprintf_Stderr
                                        (RedString (warnMsg (TagName release))) ;;;
                                      ret (TagName release,
                                           Some (Errorf0 (warnMsg (TagName release))))
                                    else ret (TagName release, None)
                                end
                            end
                        end
                      else couldNotFetch
                  | None => couldNotFetch
                  end)
           end
         else couldNotFetch)
  end.

(** ** [Execute] *)
Definition Execute : M unit :=
  modify (fun st => set_RootCmd (set_SilenceErrors true (RootCmd st)) st) ;;;
  err <- cobraExecute ;;
  match err with
  | Some e =>
      r <- getGitVersion ;;
      (match snd r with
       | None =>
           modify (fun st =>
             set_VersionWrapDump (VersionWrapDump st ++ ":" ++ fst r) st)
       | Some _ => ret tt
       end) ;;;
      st <- get ;;
      Fprintf_Stderr
        (Wrapf_Error e ("commit: " ++ VersionWrapDump st ++ ", error") ++ nl) ;;;
      (* a constant format without a verb is written as it stands *)
    modify (emit (EvStderr hintLine)) ;;;
      exit 1%Z
  | None => ret tt
  end.

(** The line [Execute] writes for the error [e] under the stamp [shown]. *)
Definition errorLine (e : error) (shown : string) : string :=
  Wrapf_Error e ("commit: " ++ shown ++ ", error") ++ nl.


(* =================================================================== *)
(** ** Strings: occurrences, pieces, substrings *)
(* =================================================================== *)

Lemma prefix_one (c a : ascii) (s : string) :
  prefix (String c EmptyString) (String a s) = Ascii.eqb c a.
Proof.
  simpl. destruct (ascii_dec c a) as [->|n].
  - rewrite Ascii.eqb_refl. now destruct s.
  - symmetry. now apply Ascii.eqb_neq.
Qed.

Lemma splitFrom_nonempty (sep : string) (k : nat) (s : string) :
  splitFrom sep k s <> [].
Proof.
  revert k. induction s as [|a s IH]; intros k; cbn [splitFrom].
  - discriminate.
  - destruct k; [|apply IH].
    destruct (prefix sep (String a s)); [discriminate|].
    destruct (splitFrom sep 0 s); discriminate.
Qed.

(** One step of splitting at a one-byte separator. *)
Lemma split_byte_step (c a : ascii) (s : string) :
  splitFrom (String c EmptyString) 0 (String a s) =
  if Ascii.eqb c a
  then EmptyString :: splitFrom (String c EmptyString) 0 s
  else cons_head a (splitFrom (String c EmptyString) 0 s).
Proof.
  change (splitFrom (String c EmptyString) 0 (String a s))
    with (if prefix (String c EmptyString) (String a s)
          then EmptyString :: splitFrom (String c EmptyString) 0 s
          else cons_head a (splitFrom (String c EmptyString) 0 s)).
  now rewrite prefix_one.
Qed.

(** A string without the separator byte is the only piece of its split. *)
Lemma split_byte_absent (c : ascii) (s : string) :
  ~ occurs c s -> splitFrom (String c EmptyString) 0 s = [s].
Proof.
  induction s as [|a s IH]; intros H.
  - reflexivity.
  - rewrite split_byte_step.
    destruct (Ascii.eqb c a) eqn:E.
    + apply Ascii.eqb_eq in E. exfalso. apply H. simpl. now left.
    + rewrite IH; [reflexivity|]. intros H'. apply H. simpl. now right.
Qed.

(** A string with the separator byte splits into two pieces at least. *)
Lemma split_byte_present (c : ascii) (s : string) :
  occurs c s ->
  exists p q r, splitFrom (String c EmptyString) 0 s = p :: q :: r.
Proof.
  induction s as [|a s IH]; intros H.
  - destruct H.
  - rewrite split_byte_step.
    destruct (Ascii.eqb c a) eqn:E.
    + destruct (splitFrom (String c EmptyString) 0 s) as [|q r] eqn:Es.
      * now apply splitFrom_nonempty in Es.
      * now exists EmptyString, q, r.
    + destruct H as [H|H].
      * apply Ascii.eqb_neq in E. congruence.
      * destruct (IH H) as (p & q & r & ->). simpl.
        now exists (String a p), q, r.
Qed.

Lemma Split_byte (s : string) (c : ascii) :
  Split s (String c EmptyString) = splitFrom (String c EmptyString) 0 s.
Proof. reflexivity. Qed.

Lemma prefix_app (x q : string) : prefix x (x ++ q) = true.
Proof.
  induction x as [|a x IH]; simpl.
  - now destruct q.
  - destruct (ascii_dec a a); [exact IH | congruence].
Qed.

Lemma prefix_refl (x : string) : prefix x x = true.
Proof.
  induction x as [|a x IH]; simpl; [reflexivity|].
  destruct (ascii_dec a a); [exact IH | congruence].
Qed.

Lemma Contains_prefix (x s : string) :
  prefix x s = true -> Contains s x = true.
Proof.
  intros H. destruct s; cbn [Contains]; rewrite H; reflexivity.
Qed.

Lemma Contains_cons (a : ascii) (s x : string) :
  Contains s x = true -> Contains (String a s) x = true.
Proof.
  intros H. cbn [Contains]. rewrite H. apply orb_true_r.
Qed.

(** A string holds each of the strings it is appended from. *)
Lemma Contains_app (p x q : string) : Contains (p ++ x ++ q) x = true.
Proof.
  induction p as [|a p IH].
  - cbn [append]. apply Contains_prefix, prefix_app.
  - cbn [append]. apply Contains_cons, IH.
Qed.

Lemma Contains_suffix (p x : string) : Contains (p ++ x) x = true.
Proof.
  induction p as [|a p IH].
  - cbn [append]. apply Contains_prefix, prefix_refl.
  - cbn [append]. apply Contains_cons, IH.
Qed.

(* =================================================================== *)
(** ** [opts] *)
(* =================================================================== *)

(** C5.  [opts] writes [DryRun] only when the dry-run flag is true, the
    signing implementation only when the ledger flag is true and
    [ConfirmationWaitTime] only when the timeout is positive; a field whose
    flag is off keeps the value the controller had (so does the wait time
    when the timeout is 0), and the rest of the controller is unchanged. *)
Theorem opts_touches_only_set_flags (R : Type) (st : State) (c : Controller R) :
  opts st c =
  mkController
    (mkBehavior
       (if dryRun st then true else DryRun (Behavior c))
       (if useLedgerWallet st then Ledger else SigningImpl (Behavior c))
       (if (0 <? timeout st)%N
        then timeout st
        else ConfirmationWaitTime (Behavior c)))
    (rest c).
Proof.
  destruct c as [[d i w] r]. unfold opts.
  destruct (dryRun st), (useLedgerWallet st), (0 <? timeout st)%N;
    reflexivity.
Qed.

(** C10.  Applying [opts] twice under the same flags gives the controller
    that applying it once gives. *)
Theorem opts_idempotent (R : Type) (st : State) (c : Controller R) :
  opts st (opts st c) = opts st c.
Proof.
  destruct c as [[d i w] r]. unfold opts.
  destruct (dryRun st), (useLedgerWallet st), (0 <? timeout st)%N;
    reflexivity.
Qed.

(** C4, as amended.  With the timeout flag at 0, [opts] does not assign
    the confirmation wait: the controller keeps the wait it had. *)
Theorem opts_timeout_zero_keeps_wait (R : Type) (st : State) (c : Controller R) :
  timeout st = 0%N ->
  ConfirmationWaitTime (Behavior (opts st c)) =
  ConfirmationWaitTime (Behavior c).
Proof.
  intros H. destruct c as [[d i w] r]. unfold opts. rewrite H.
  destruct (dryRun st), (useLedgerWallet st); reflexivity.
Qed.

(* =================================================================== *)
(** ** [findAddress] *)
(* =================================================================== *)

(** C1.  [findAddress] always returns.  It returns no error exactly when
    the text parses as an address or the account-name store knows it.  The
    text is parsed first: when it parses, the parsed address is returned
    and the store is not consulted; otherwise the store is consulted once,
    and when it fails too the error reads
    [Invalid address/Invalid account name: ] followed by the text. *)
Theorem findAddress_resolves (value : string) (st : State) :
  exists a e st',
    findAddress value st = (Returned (a, e), st') /\
    (e = None <->
       snd (tronAddress_Set zeroAddress value) = None \/
       snd (AddressFromAccountName value) = None) /\
    (snd (tronAddress_Set zeroAddress value) = None ->
       a = fst (tronAddress_Set zeroAddress value) /\ st' = st) /\
    (snd (tronAddress_Set zeroAddress value) <> None ->
       st' = emit (EvStoreLookup value) st) /\
    (snd (tronAddress_Set zeroAddress value) <> None ->
     snd (AddressFromAccountName value) = None ->
       a = mkTronAddress (fst (AddressFromAccountName value))) /\
    (snd (tronAddress_Set zeroAddress value) <> None ->
     snd (AddressFromAccountName value) <> None ->
       e = Some (invalidMsg value) /\
       Contains (invalidMsg value) value = true).
Proof.
  unfold findAddress.
  destruct (tronAddress_Set zeroAddress value) as [a [e|]];
    destruct (AddressFromAccountName value) as [acc [e'|]];
    cbn -[Contains invalidMsg];
    do 3 eexists; (split; [reflexivity|]);
    repeat match goal with
           | |- _ /\ _ => split
           | |- _ <-> _ => split
           | |- _ -> _ => intro
           | H : _ \/ _ |- _ => destruct H
           | H : ?x <> ?x |- _ => destruct (H eq_refl)
           end;
    try discriminate; try reflexivity;
    try (left; reflexivity); try (right; reflexivity);
    unfold invalidMsg; apply Contains_suffix.
Qed.

(** [findAddress] returns, and writes no package variable. *)
Lemma findAddress_returns (value : string) (st : State) :
  exists r st',
    findAddress value st = (Returned r, st') /\
    node st' = node st /\ conn st' = conn st /\
    VersionWrapDump st' = VersionWrapDump st.
Proof.
  unfold findAddress.
  destruct (tronAddress_Set zeroAddress value) as [a [e|]];
    destruct (AddressFromAccountName value) as [acc [e'|]];
    cbn; do 2 eexists; (split; [reflexivity|]); auto.
Qed.

(* =================================================================== *)
(** ** [PersistentPreRunE] *)
(* =================================================================== *)

(** The hook leaves the endpoint as its [switch] statement made it, on
    every path, and the client is made for that endpoint. *)
Lemma preRun_node (st : State) :
  node (snd (PersistentPreRunE st)) = normalized (node st) /\
  conn (snd (PersistentPreRunE st)) = Some (normalized (node st)).
Proof.
  unfold PersistentPreRunE, normalized, bind, get, modify, ret.
  cbn -[Split findAddress].
  destruct (verbose st);
    destruct (List.length (Split (node st) ":")) as [|[|n]];
    cbn -[Split findAddress].
  all: match goal with
       | |- context [grpcStart ?x] =>
           destruct (grpcStart x); cbn -[Split findAddress]; auto
       end.
  all: match goal with
       | |- context [String.length ?x] =>
           destruct (String.length x); cbn -[Split findAddress]; auto
       end.
  all: match goal with
       | |- context [findAddress ?v ?s] =>
           destruct (findAddress_returns v s) as (r & s' & -> & Hn & Hc & _)
       end.
  all: cbn; destruct (snd r); cbn; rewrite Hn, Hc; cbn; auto.
Qed.

Lemma normalized_without_colon (n : string) :
  ~ occurs ":"%char n -> normalized n = n ++ ":50051".
Proof.
  intros H. unfold normalized.
  rewrite Split_byte, (split_byte_absent _ _ H). reflexivity.
Qed.

Lemma normalized_with_colon (n : string) :
  occurs ":"%char n -> normalized n = n.
Proof.
  intros H. unfold normalized. rewrite Split_byte.
  destruct (split_byte_present _ _ H) as (p & q & r & ->). reflexivity.
Qed.

(** C6.  When the node string holds no colon, the hook leaves it with
    [:50051] appended; when it holds a colon, the hook leaves it as it
    was.  The client is made for the endpoint so obtained. *)
Theorem preRun_normalizes_endpoint :
  (forall st : State,
      ~ occurs ":"%char (node st) ->
      node (snd (PersistentPreRunE st)) = node st ++ ":50051" /\
      conn (snd (PersistentPreRunE st)) = Some (node st ++ ":50051")) /\
  (forall st : State,
      occurs ":"%char (node st) ->
      node (snd (PersistentPreRunE st)) = node st /\
      conn (snd (PersistentPreRunE st)) = Some (node st)).
Proof.
  split; intros st H; destruct (preRun_node st) as [Hn Hc];
    rewrite Hn, Hc.
  - now rewrite (normalized_without_colon _ H).
  - now rewrite (normalized_with_colon _ H).
Qed.

(* =================================================================== *)
(** ** [getGitVersion] *)
(* =================================================================== *)

Lemma emit_one (e : Event) (st : State) : emit e st = emits [e] st.
Proof. reflexivity. Qed.

Lemma emits_emits (es es' : list Event) (st : State) :
  emits es (emits es' st) = emits (es' ++ es) st.
Proof. unfold emits, set_trace. simpl. now rewrite <- app_assoc. Qed.

Lemma trace_emits (es : list Event) (st : State) :
  trace (emits es st) = (trace st ++ es)%list.
Proof. reflexivity. Qed.

Lemma stderr_of_app (t u : list Event) :
  stderr_of (t ++ u) = (stderr_of t ++ stderr_of u)%list.
Proof.
  induction t as [|e t IH]; [reflexivity|].
  destruct e; cbn [app stderr_of]; rewrite IH; reflexivity.
Qed.

Ltac step :=
  cbn -[Split slice_to index_at versionLink versionTagLink emit emits
        warnMsg Errorf0 String.eqb hintLine Wrapf_Error append
        getGitVersion].

Ltac traces := rewrite ?emit_one, ?emits_emits; reflexivity.

(** No response from the release endpoint: the panic of line 140. *)
Lemma getGitVersion_no_response (st : State) :
  http_get versionLink = None ->
  getGitVersion st =
  (Panicked NilDereference, emits [EvHttpGet versionLink] st).
Proof.
  intros H. unfold getGitVersion, bind, modify, raise. now rewrite H.
Qed.

(** A response from the release endpoint whose status is not 200. *)
Lemma getGitVersion_not_200 (st : State) (resp : Response) :
  http_get versionLink = Some resp ->
  StatusCode resp <> 200%Z ->
  getGitVersion st =
  (Returned (EmptyString, Some "could not fetch version"),
   emits [EvHttpGet versionLink; EvBodyClose versionLink] st).
Proof.
  intros H1 H2. apply Z.eqb_neq in H2.
  unfold getGitVersion, bind, modify, defer, couldNotFetch, ret.
  rewrite H1, H2. step. traces.
Qed.

(** Both requests answered with status 200 and both bodies decoded: what
    the comparison of line 163 makes of the commit hash and the stamp. *)
Lemma getGitVersion_reaches
    (st : State) (resp respTag : Response)
    (release : GitHubRelease) (releaseTag : GitHubTag) :
  http_get versionLink = Some resp ->
  StatusCode resp = 200%Z ->
  unmarshalRelease (Body resp) = inr release ->
  http_get (versionTagLink ++ TagName release) = Some respTag ->
  StatusCode respTag = 200%Z ->
  unmarshalTag (Body respTag) = inr releaseTag ->
  getGitVersion st =
  let fetched :=
    [EvHttpGet versionLink; EvHttpGet (versionTagLink ++ TagName release)] in
  let closed := [EvBodyClose versionLink; EvBodyClose versionLink] in
  match slice_to 8 (SHA releaseTag) with
  | None => (Panicked SliceBoundsOutOfRange, emits (fetched ++ closed) st)
  | Some sha8 =>
      match index_at (Split (VersionWrapDump st) "-") 1 with
      | None => (Panicked IndexOutOfRange, emits (fetched ++ closed) st)
      | Some commit1 =>
          if negb (String.eqb sha8 commit1)
          then
            (Returned (TagName release,
                       Some (Errorf0 (warnMsg (TagName release)))),
             emits
               (fetched ++
                [EvStderr (Sprintf0 (RedString (warnMsg (TagName release))))] ++
                closed) st)
          else (Returned (TagName release, None), emits (fetched ++ closed) st)
      end
  end.
Proof.
  intros H1 H2 H3 H4 H5 H6.
  unfold getGitVersion, bind, modify, defer, get, ret, raise, Fprintf_Stderr.
  rewrite H1, H2. step. rewrite H3. step. rewrite H4, H5. step.
  rewrite H6. step.
  change (VersionWrapDump (emit _ (emit _ st))) with (VersionWrapDump st).
  destruct (slice_to 8 (SHA releaseTag)) as [sha8|]; step; [|traces].
  destruct (index_at (Split (VersionWrapDump st) "-") 1) as [c1|];
    step; [|traces].
  destruct (negb (String.eqb sha8 c1)); step; traces.
Qed.

(** Whatever happens, [getGitVersion] only appends events: it writes no
    package variable. *)
Lemma getGitVersion_appends (st : State) :
  exists es, snd (getGitVersion st) = emits es st.
Proof.
  unfold getGitVersion, bind, modify, defer, get, ret, raise,
    Fprintf_Stderr, couldNotFetch.
  destruct (http_get versionLink) as [resp|]; step;
    [|eexists; traces].
  destruct (StatusCode resp =? 200)%Z; step; [|eexists; traces].
  destruct (unmarshalRelease (Body resp)) as [e|release]; step;
    [eexists; traces|].
  destruct (http_get (versionTagLink ++ TagName release)) as [respTag|];
    step; [|eexists; traces].
  destruct (StatusCode respTag =? 200)%Z; step; [|eexists; traces].
  destruct (unmarshalTag (Body respTag)) as [e|releaseTag]; step;
    [eexists; traces|].
  change (VersionWrapDump (emit _ (emit _ st))) with (VersionWrapDump st).
  destruct (slice_to 8 (SHA releaseTag)) as [sha8|]; step;
    [|eexists; traces].
  destruct (index_at (Split (VersionWrapDump st) "-") 1) as [c1|];
    step; [|eexists; traces].
  destruct (negb (String.eqb sha8 c1)); step; eexists; traces.
Qed.

Lemma slice_to_short (n : nat) (s : string) :
  String.length s < n -> slice_to n s = None.
Proof.
  intros H. unfold slice_to.
  destruct (Nat.leb n (String.length s)) eqn:E; [|reflexivity].
  apply Nat.leb_le in E. lia.
Qed.

Lemma slice_to_long (n : nat) (s : string) :
  n <= String.length s -> slice_to n s = Some (substring 0 n s).
Proof.
  intros H. unfold slice_to. apply Nat.leb_le in H. now rewrite H.
Qed.

Lemma second_piece_absent (s : string) (c : ascii) :
  ~ occurs c s -> index_at (Split s (String c EmptyString)) 1 = None.
Proof.
  intros H. now rewrite Split_byte, (split_byte_absent _ _ H).
Qed.

Lemma second_piece_present (s : string) (c : ascii) :
  occurs c s ->
  exists q, index_at (Split s (String c EmptyString)) 1 = Some q.
Proof.
  intros H. rewrite Split_byte.
  destruct (split_byte_present _ _ H) as (p & q & r & ->). now exists q.
Qed.

(** The comparison, in terms of the formatter.  Both requests answered
    with status 200 and decoded, [sha8] the
    first 8 bytes of the commit hash and [commit1] the second piece of the
    build stamp split at [-].  When they differ, [getGitVersion] returns
    the tag name with an error made from the warning, and the warning,
    which holds the tag name, is written to standard error (in red, through
    the formatter); when they are equal it returns the tag name with no
    error and writes nothing to standard error. *)
Theorem getGitVersion_compares
    (st : State) (resp respTag : Response)
    (release : GitHubRelease) (releaseTag : GitHubTag)
    (sha8 commit1 : string) :
  http_get versionLink = Some resp ->
  StatusCode resp = 200%Z ->
  unmarshalRelease (Body resp) = inr release ->
  http_get (versionTagLink ++ TagName release) = Some respTag ->
  StatusCode respTag = 200%Z ->
  unmarshalTag (Body respTag) = inr releaseTag ->
  slice_to 8 (SHA releaseTag) = Some sha8 ->
  index_at (Split (VersionWrapDump st) "-") 1 = Some commit1 ->
  (sha8 <> commit1 ->
     getGitVersion st =
     (Returned (TagName release, Some (Errorf0 (warnMsg (TagName release)))),
      emits
        [EvHttpGet versionLink;
         EvHttpGet (versionTagLink ++ TagName release);
         EvStderr (Sprintf0 (RedString (warnMsg (TagName release))));
         EvBodyClose versionLink; EvBodyClose versionLink] st) /\
     Contains (warnMsg (TagName release)) (TagName release) = true) /\
  (sha8 = commit1 ->
     getGitVersion st =
     (Returned (TagName release, None),
      emits
        [EvHttpGet versionLink;
         EvHttpGet (versionTagLink ++ TagName release);
         EvBodyClose versionLink; EvBodyClose versionLink] st) /\
     stderr_of (trace (snd (getGitVersion st))) = stderr_of (trace st)).
Proof.
  intros H1 H2 H3 H4 H5 H6 H7 H8.
  rewrite (getGitVersion_reaches st _ _ _ _ H1 H2 H3 H4 H5 H6).
  cbv zeta. rewrite H7, H8. split; intros H.
  - apply String.eqb_neq in H. rewrite H. split; [reflexivity|].
    unfold warnMsg. apply Contains_app.
  - apply String.eqb_eq in H. rewrite H. split; [reflexivity|].
    cbn [snd negb]. rewrite trace_emits, stderr_of_app.
    cbn [app stderr_of]. apply app_nil_r.
Qed.

(** C8.  Both requests answered with status 200 and decoded, so that the
    comparison of line 163 is reached.  A commit hash shorter than 8 bytes
    makes it panic on the slice bound; a build stamp without [-] makes it
    panic on the index; in both cases nothing is returned.  With a hash of
    8 bytes or more and a [-] in the stamp, [getGitVersion] returns. *)
Theorem comparison_faults
    (st : State) (resp respTag : Response)
    (release : GitHubRelease) (releaseTag : GitHubTag) :
  http_get versionLink = Some resp ->
  StatusCode resp = 200%Z ->
  unmarshalRelease (Body resp) = inr release ->
  http_get (versionTagLink ++ TagName release) = Some respTag ->
  StatusCode respTag = 200%Z ->
  unmarshalTag (Body respTag) = inr releaseTag ->
  (String.length (SHA releaseTag) < 8 ->
     fst (getGitVersion st) = Panicked SliceBoundsOutOfRange) /\
  (8 <= String.length (SHA releaseTag) ->
   ~ occurs "-"%char (VersionWrapDump st) ->
     fst (getGitVersion st) = Panicked IndexOutOfRange) /\
  (8 <= String.length (SHA releaseTag) ->
   occurs "-"%char (VersionWrapDump st) ->
     exists r, fst (getGitVersion st) = Returned r).
Proof.
  intros H1 H2 H3 H4 H5 H6.
  rewrite (getGitVersion_reaches st _ _ _ _ H1 H2 H3 H4 H5 H6).
  cbv zeta. repeat split.
  - intros Hs. now rewrite (slice_to_short _ _ Hs).
  - intros Hs Hd.
    now rewrite (slice_to_long _ _ Hs), (second_piece_absent _ _ Hd).
  - intros Hs Hd. rewrite (slice_to_long _ _ Hs).
    destruct (second_piece_present _ _ Hd) as [q ->].
    destruct (negb _); eexists; reflexivity.
Qed.



(* =================================================================== *)
(** ** [Execute] *)
(* =================================================================== *)

(** The state in which the framework is entered. *)
Lemma Execute_silences (st : State) :
  SilenceUsage (RootCmd st) = true ->
  let st0 := set_RootCmd (set_SilenceErrors true (RootCmd st)) st in
  SilenceErrors (RootCmd st0) = true /\ SilenceUsage (RootCmd st0) = true.
Proof. intros H. split; [reflexivity | exact H]. Qed.

(** The root command succeeds: [Execute] returns where it left off. *)
Lemma Execute_on_success (st st1 : State) :
  cobraExecute (set_RootCmd (set_SilenceErrors true (RootCmd st)) st) =
    (Returned None, st1) ->
  Execute st = (Returned tt, st1).
Proof.
  intros H. unfold Execute, bind, modify. step. now rewrite H.
Qed.

(** The root command fails and the release check panics. *)
Lemma Execute_on_panic (st st1 st2 : State) (e : error) (p : panic) :
  cobraExecute (set_RootCmd (set_SilenceErrors true (RootCmd st)) st) =
    (Returned (Some e), st1) ->
  getGitVersion st1 = (Panicked p, st2) ->
  Execute st = (Panicked p, st2).
Proof.
  intros H1 H2. unfold Execute, bind, modify. step. rewrite H1. step.
  now rewrite H2.
Qed.

(** The root command fails and the release check returns. *)
Lemma Execute_on_error
    (st st1 st2 : State) (e : error) (tag : string) (errGit : option error) :
  cobraExecute (set_RootCmd (set_SilenceErrors true (RootCmd st)) st) =
    (Returned (Some e), st1) ->
  getGitVersion st1 = (Returned (tag, errGit), st2) ->
  Execute st =
  match errGit with
  | None =>
      (Exited 1%Z,
       emits [EvStderr (Sprintf0 (errorLine e (VersionWrapDump st1 ++ ":" ++ tag)));
              EvStderr hintLine]
         (set_VersionWrapDump (VersionWrapDump st1 ++ ":" ++ tag) st2))
  | Some _ =>
      (Exited 1%Z,
       emits [EvStderr (Sprintf0 (errorLine e (VersionWrapDump st1)));
              EvStderr hintLine] st2)
  end.
Proof.
  intros H1 H2.
  assert (Hv : VersionWrapDump st2 = VersionWrapDump st1).
  { destruct (getGitVersion_appends st1) as [es Hes].
    rewrite H2 in Hes. cbn [snd] in Hes. now rewrite Hes. }
  unfold Execute, bind, modify, get, exit, Fprintf_Stderr, errorLine.
  step. rewrite H1. step. rewrite H2. step.
  destruct errGit as [eg|]; step.
  - change (VersionWrapDump (emit _ st2)) with (VersionWrapDump st2).
    rewrite Hv. traces.
  - rewrite Hv. traces.
Qed.


(* =================================================================== *)
(** ** More on [getGitVersion] *)
(* =================================================================== *)

(** X1.  A body that does not decode: the decoder's error comes back as
    it is, with an empty tag, and nothing is written to standard error;
    when it is the release body, the tag endpoint is not asked. *)
Theorem getGitVersion_decode_errors (st : State) (resp : Response) (err : error) :
  http_get versionLink = Some resp ->
  StatusCode resp = 200%Z ->
  (unmarshalRelease (Body resp) = inl err ->
     getGitVersion st =
     (Returned (EmptyString, Some err),
      emits [EvHttpGet versionLink; EvBodyClose versionLink] st)) /\
  (forall (release : GitHubRelease) (respTag : Response),
     unmarshalRelease (Body resp) = inr release ->
     http_get (versionTagLink ++ TagName release) = Some respTag ->
     StatusCode respTag = 200%Z ->
     unmarshalTag (Body respTag) = inl err ->
     getGitVersion st =
     (Returned (EmptyString, Some err),
      emits [EvHttpGet versionLink;
             EvHttpGet (versionTagLink ++ TagName release);
             EvBodyClose versionLink; EvBodyClose versionLink] st)).
Proof.
  intros H1 H2. split.
  - intros H3.
    unfold getGitVersion, bind, modify, defer, ret.
    rewrite H1, H2. step. rewrite H3. step. traces.
  - intros release respTag H3 H4 H5 H6.
    unfold getGitVersion, bind, modify, defer, ret.
    rewrite H1, H2. step. rewrite H3. step. rewrite H4, H5. step.
    rewrite H6. step. traces.
Qed.

(** X2.  The release is found but the tag endpoint gives no response, or
    a status other than 200: [getGitVersion] returns an empty tag and
    [could not fetch version]; it does not panic, as it does when the
    release endpoint gives no response. *)
Theorem getGitVersion_tag_unavailable
    (st : State) (resp : Response) (release : GitHubRelease) :
  http_get versionLink = Some resp ->
  StatusCode resp = 200%Z ->
  unmarshalRelease (Body resp) = inr release ->
  (http_get (versionTagLink ++ TagName release) = None \/
   exists respTag,
     http_get (versionTagLink ++ TagName release) = Some respTag /\
     StatusCode respTag <> 200%Z) ->
  getGitVersion st =
  (Returned (EmptyString, Some "could not fetch version"),
   emits [EvHttpGet versionLink;
          EvHttpGet (versionTagLink ++ TagName release);
          EvBodyClose versionLink; EvBodyClose versionLink] st).
Proof.
  intros H1 H2 H3 H4.
  unfold getGitVersion, bind, modify, defer, ret, couldNotFetch.
  rewrite H1, H2. step. rewrite H3. step.
  destruct H4 as [H4|(respTag & H4 & H5)]; rewrite H4; step.
  - traces.
  - apply Z.eqb_neq in H5. rewrite H5. step. traces.
Qed.

(** The tag endpoint is not the release endpoint. *)
Lemma tag_url_differs (tag : string) : versionTagLink ++ tag <> versionLink.
Proof. unfold versionTagLink, versionLink. cbn [append]. discriminate. Qed.

Ltac close_case :=
  rewrite ?emit_one, ?emits_emits;
  match goal with
  | H : forall o es, _ |- _ =>
      apply H;
      [ discriminate
      | reflexivity
      | cbn; lia
      | cbn; lia
      | cbn; intros u Hu;
        repeat (destruct Hu as [Hu|Hu]; [congruence|]); destruct Hu ]
  end.

(** The events of a call of [getGitVersion]. *)
Lemma getGitVersion_events (st : State) :
  exists es,
    snd (getGitVersion st) = emits es st /\
    hd_error es = Some (EvHttpGet versionLink) /\
    List.length (gets_of es) <= 2 /\
    List.length (stderr_of es) <= 1 /\
    (forall u, In (EvBodyClose u) es -> u = versionLink) /\
    (forall c, fst (getGitVersion st) <> Exited c).
Proof.
  unfold getGitVersion, bind, modify, defer, get, ret, raise,
    Fprintf_Stderr, couldNotFetch.
  assert (Hfin : forall (o : Outcome (string * option error)) es,
             (forall c, o <> Exited c) ->
             hd_error es = Some (EvHttpGet versionLink) ->
             List.length (gets_of es) <= 2 ->
             List.length (stderr_of es) <= 1 ->
             (forall u, In (EvBodyClose u) es -> u = versionLink) ->
             exists es',
               snd (o, emits es st) = emits es' st /\
               hd_error es' = Some (EvHttpGet versionLink) /\
               List.length (gets_of es') <= 2 /\
               List.length (stderr_of es') <= 1 /\
               (forall u, In (EvBodyClose u) es' -> u = versionLink) /\
               (forall c, fst (o, emits es st) <> Exited c)).
  { intros o es Ho Hh Hg Hs Hc. exists es. repeat split; assumption. }
  destruct (http_get versionLink) as [resp|]; step; [|close_case].
  destruct (StatusCode resp =? 200)%Z; step; [|close_case].
  destruct (unmarshalRelease (Body resp)) as [e|release]; step;
    [close_case|].
  destruct (http_get (versionTagLink ++ TagName release)) as [respTag|];
    step; [|close_case].
  destruct (StatusCode respTag =? 200)%Z; step; [|close_case].
  destruct (unmarshalTag (Body respTag)) as [e|releaseTag]; step;
    [close_case|].
  change (VersionWrapDump (emit _ (emit _ st))) with (VersionWrapDump st).
  destruct (slice_to 8 (SHA releaseTag)) as [sha8|]; step; [|close_case].
  destruct (index_at (Split (VersionWrapDump st) "-") 1) as [c1|];
    step; [|close_case].
  destruct (negb (String.eqb sha8 c1)); step; close_case.
Qed.

(** X3.  Whatever the network answers, [getGitVersion] writes no package
    variable and only appends events: the first is the request to the
    release endpoint, there are at most two requests and at most one write
    to standard error, and the only body ever closed is the one of the
    release response, never the one of the tag response.  It never ends the process. *)
Theorem getGitVersion_footprint (st : State) :
  exists es,
    snd (getGitVersion st) = emits es st /\
    hd_error es = Some (EvHttpGet versionLink) /\
    List.length (gets_of es) <= 2 /\
    List.length (stderr_of es) <= 1 /\
    (forall u, In (EvBodyClose u) es -> u = versionLink) /\
    (forall tag, ~ In (EvBodyClose (versionTagLink ++ tag)) es) /\
    (forall c, fst (getGitVersion st) <> Exited c).
Proof.
  destruct (getGitVersion_events st) as (es & H1 & H2 & H3 & H4 & H5 & H6).
  exists es. repeat split; try assumption.
  intros tag Hin. exact (tag_url_differs tag (H5 _ Hin)).
Qed.

Lemma substring_length (n : nat) (s : string) :
  n <= String.length s -> String.length (substring 0 n s) = n.
Proof.
  revert s. induction n as [|n IH]; intros [|c s] H; cbn in *;
    try reflexivity; try lia.
  f_equal. apply IH. lia.
Qed.

(* =================================================================== *)
(** ** More on [Execute] *)
(* =================================================================== *)

(** X5.  When the root command succeeds, [Execute] returns in the state
    the root command left: no request is made and nothing is written after
    it, and a process that ends there ends with status 0.  The framework
    was entered with its own error printing switched off. *)
Theorem Execute_success_is_quiet (st st1 : State) :
  cobraExecute (set_RootCmd (set_SilenceErrors true (RootCmd st)) st) =
    (Returned None, st1) ->
  Execute st = (Returned tt, st1) /\
  exitStatus (fst (Execute st)) = 0%Z /\
  SilenceErrors
    (RootCmd (set_RootCmd (set_SilenceErrors true (RootCmd st)) st)) = true /\
  SilenceUsage
    (RootCmd (set_RootCmd (set_SilenceErrors true (RootCmd st)) st)) =
  SilenceUsage (RootCmd st).
Proof.
  intros H. rewrite (Execute_on_success _ _ H). repeat split.
Qed.

(** X6.  When the root command fails, [Execute] never returns to its
    caller: it ends the process with status 1 when the release check
    returns, and it panics with the panic of the release check when that
    panics.  The exit status is 1 or 2. *)
Theorem Execute_failure_never_returns (st st1 : State) (e : error) :
  cobraExecute (set_RootCmd (set_SilenceErrors true (RootCmd st)) st) =
    (Returned (Some e), st1) ->
  ((exists r, fst (getGitVersion st1) = Returned r) /\
   fst (Execute st) = Exited 1%Z \/
   (exists p, fst (getGitVersion st1) = Panicked p /\
              Execute st = (Panicked p, snd (getGitVersion st1)))) /\
  (forall u, fst (Execute st) <> Returned u) /\
  (exitStatus (fst (Execute st)) = 1%Z \/ exitStatus (fst (Execute st)) = 2%Z).
Proof.
  intros H.
  destruct (getGitVersion st1) as [[[tag errGit]|p|c] st2] eqn:Hg.
  - pose proof (Execute_on_error _ _ _ _ _ _ H Hg) as HE.
    assert (Hx : fst (Execute st) = Exited 1%Z).
    { rewrite HE. now destruct errGit. }
    rewrite Hx. cbn [fst snd exitStatus]. split; [|split].
    + left. split; [eexists; reflexivity | reflexivity].
    + discriminate.
    + now left.
  - rewrite (Execute_on_panic _ _ _ _ _ H Hg). cbn [fst snd exitStatus].
    split; [|split].
    + right. exists p. split; reflexivity.
    + discriminate.
    + now right.
  - exfalso.
    destruct (getGitVersion_events st1) as (es & _ & _ & _ & _ & _ & Hn).
    apply (Hn c). now rewrite Hg.
Qed.

(** X7.  The root command fails and the release endpoint answers with a
    status other than 200: [Execute] exits with status 1 after writing the
    error under the build stamp as it was, then the hint; the build stamp
    and every other package variable are as the root command left them. *)
Theorem Execute_failure_release_not_200
    (st st1 : State) (e : error) (resp : Response) :
  cobraExecute (set_RootCmd (set_SilenceErrors true (RootCmd st)) st) =
    (Returned (Some e), st1) ->
  http_get versionLink = Some resp ->
  StatusCode resp <> 200%Z ->
  Execute st =
  (Exited 1%Z,
   emits [EvHttpGet versionLink; EvBodyClose versionLink;
          EvStderr (Sprintf0 (errorLine e (VersionWrapDump st1)));
          EvStderr hintLine] st1).
Proof.
  intros H1 H2 H3.
  rewrite (Execute_on_error _ _ _ _ _ _ H1
             (getGitVersion_not_200 st1 resp H2 H3)).
  now rewrite emits_emits.
Qed.

(* =================================================================== *)
(** ** More on [PersistentPreRunE] *)
(* =================================================================== *)

Lemma occurs_app_r (c : ascii) (s t : string) :
  occurs c t -> occurs c (s ++ t).
Proof.
  intros H. induction s as [|a s IH]; cbn [append occurs]; [exact H|].
  now right.
Qed.

Lemma occurs_decidable (c : ascii) (s : string) : occurs c s \/ ~ occurs c s.
Proof.
  induction s as [|a s IH]; cbn [occurs]; [now right|].
  destruct (ascii_dec a c) as [->|Hn]; [now left; left|].
  destruct IH as [IH|IH]; [now left; right|].
  right. intros [H|H]; contradiction.
Qed.

Lemma normalized_has_colon (n : string) : occurs ":"%char (normalized n).
Proof.
  destruct (occurs_decidable ":"%char n) as [H|H].
  - now rewrite (normalized_with_colon _ H).
  - rewrite (normalized_without_colon _ H). apply occurs_app_r.
    cbn. now left.
Qed.

(** X9.  The endpoint the hook leaves in [node], which is the endpoint of
    the client it makes, always holds a colon. *)
Theorem preRun_endpoint_has_colon (st : State) :
  occurs ":"%char (node (snd (PersistentPreRunE st))) /\
  exists endpoint,
    conn (snd (PersistentPreRunE st)) = Some endpoint /\
    occurs ":"%char endpoint.
Proof.
  destruct (preRun_node st) as [Hn Hc]. rewrite Hn, Hc. split.
  - apply normalized_has_colon.
  - eexists. split; [reflexivity | apply normalized_has_colon].
Qed.

(** X10.  Running the hook a second time leaves the endpoint as the first
    run made it: the port is appended once at most. *)
Theorem preRun_endpoint_settles (st : State) :
  node (snd (PersistentPreRunE (snd (PersistentPreRunE st)))) =
  node (snd (PersistentPreRunE st)).
Proof.
  destruct (preRun_node (snd (PersistentPreRunE st))) as [Hn _].
  rewrite Hn. apply normalized_with_colon.
  destruct (preRun_node st) as [Hn' _]. rewrite Hn'.
  apply normalized_has_colon.
Qed.

(** X11.  When the connection cannot be started, or no signer was given,
    the hook returns what [conn.Start] returned, resolves no signer (no
    parse, no lookup in the store), and leaves [signerAddress] as it
    was; its events are the verbose switch (if asked) and the start of the
    connection to the normalized endpoint. *)
Theorem preRun_skips_signer (st : State) :
  grpcStart (normalized (node st)) <> None \/ signer st = EmptyString ->
  fst (PersistentPreRunE st) = Returned (grpcStart (normalized (node st))) /\
  signerAddress (snd (PersistentPreRunE st)) = signerAddress st /\
  trace (snd (PersistentPreRunE st)) =
    (trace st ++
     (if verbose st then [EvEnableAllVerbose] else []) ++
     [EvGrpcStart (normalized (node st))])%list.
Proof.
  intros H.
  unfold PersistentPreRunE, normalized, bind, get, modify, ret in *.
  cbn -[Split findAddress].
  destruct (verbose st);
    destruct (List.length (Split (node st) ":")) as [|[|n]];
    cbn -[Split findAddress] in *.
  all: match goal with
       | |- context [grpcStart ?x] =>
           destruct (grpcStart x) as [err|] eqn:Hs; cbn -[Split findAddress]
       end.
  all: try (repeat split; rewrite <- ?app_assoc; reflexivity).
  all: destruct H as [H|H]; [congruence|].
  all: rewrite H; cbn -[Split findAddress].
  all: repeat split; rewrite <- ?app_assoc; reflexivity.
Qed.

(** X12.  When the connection starts and a signer was given, the hook
    resolves it with [findAddress] and assigns [signerAddress] whatever the
    outcome: the parsed address when the text parses, the address of the
    account when only the store knows it, and, when neither does, what the
    failed parse left, together with the error naming the signer. *)
Theorem preRun_resolves_signer (st : State) :
  grpcStart (normalized (node st)) = None ->
  signer st <> EmptyString ->
  (snd (tronAddress_Set zeroAddress (signer st)) = None ->
     fst (PersistentPreRunE st) = Returned None /\
     signerAddress (snd (PersistentPreRunE st)) =
       fst (tronAddress_Set zeroAddress (signer st))) /\
  (snd (tronAddress_Set zeroAddress (signer st)) <> None ->
   snd (AddressFromAccountName (signer st)) = None ->
     fst (PersistentPreRunE st) = Returned None /\
     signerAddress (snd (PersistentPreRunE st)) =
       mkTronAddress (fst (AddressFromAccountName (signer st)))) /\
  (snd (tronAddress_Set zeroAddress (signer st)) <> None ->
   snd (AddressFromAccountName (signer st)) <> None ->
     fst (PersistentPreRunE st) = Returned (Some (invalidMsg (signer st))) /\
     signerAddress (snd (PersistentPreRunE st)) =
       fst (tronAddress_Set zeroAddress (signer st))).
Proof.
  intros Hs Hsig.
  assert (Hlen : exists k, String.length (signer st) = S k).
  { destruct (signer st); [congruence | eexists; reflexivity]. }
  destruct Hlen as [k Hlen].
  unfold PersistentPreRunE, normalized, findAddress, bind, get, modify, ret
    in *.
  cbn -[Split invalidMsg].
  destruct (verbose st);
    destruct (List.length (Split (node st) ":")) as [|[|n]];
    cbn -[Split invalidMsg] in *; rewrite Hs, Hlen; cbn -[Split invalidMsg].
  all: destruct (tronAddress_Set zeroAddress (signer st)) as [a [e|]];
    destruct (AddressFromAccountName (signer st)) as [acc [e'|]];
    cbn -[Split invalidMsg].
  all: repeat split; intros; try congruence; reflexivity.
Qed.

(* =================================================================== *)
(** ** [validateAddress] *)
(* =================================================================== *)

(** X13.  [validateAddress] looks at its first argument only: it returns
    the error of [findAddress] on it and assigns [addr] the address that
    came back, also when the error is not nil.  Without any argument it
    panics on the index. *)
Theorem validateAddress_first_argument
    (a : string) (more : list string) (st : State) :
  validateAddress (a :: more) st = validateAddress [a] st /\
  (exists r st',
     findAddress a st = (Returned r, st') /\
     validateAddress (a :: more) st = (Returned (snd r), set_addr (fst r) st')) /\
  validateAddress [] st = (Panicked IndexOutOfRange, st).
Proof.
  split; [reflexivity|]. split; [|reflexivity].
  destruct (findAddress_returns a st) as (r & st' & Hf & _).
  exists r, st'. split; [exact Hf|].
  unfold validateAddress, bind, modify, ret. cbn [index_at nth_error].
  now rewrite Hf.
Qed.

(* =================================================================== *)
(** ** More on [opts] *)
(* =================================================================== *)

(** X14.  With dry run and ledger off and the timeout at 0, [opts] leaves
    the controller exactly as it is. *)
Theorem opts_without_flags (R : Type) (st : State) (c : Controller R) :
  dryRun st = false ->
  useLedgerWallet st = false ->
  timeout st = 0%N ->
  opts st c = c.
Proof.
  intros H1 H2 H3. destruct c as [[d i w] r]. unfold opts.
  rewrite H1, H2, H3. reflexivity.
Qed.

(** X15.  [opts] switches things on and never off: a controller in dry
    run stays in dry run, one that signs through the ledger keeps doing so,
    and the wait is 0 afterwards only if it was 0 before and the timeout
    flag is 0. *)
Theorem opts_never_switches_off (R : Type) (st : State) (c : Controller R) :
  (DryRun (Behavior c) = true -> DryRun (Behavior (opts st c)) = true) /\
  (SigningImpl (Behavior c) = Ledger ->
     SigningImpl (Behavior (opts st c)) = Ledger) /\
  (ConfirmationWaitTime (Behavior (opts st c)) = 0%N ->
     ConfirmationWaitTime (Behavior c) = 0%N /\ timeout st = 0%N).
Proof.
  destruct c as [[d i w] r]. unfold opts.
  destruct (dryRun st), (useLedgerWallet st);
    destruct (N.ltb_spec 0 (timeout st)); cbn;
    repeat split; intros; subst; try reflexivity; try assumption; lia.
Qed.

(** X16.  Applying [opts] under two valuations of the flags gives the same
    controller in either order, provided the two timeouts agree or one of
    them is 0. *)
Theorem opts_commute (R : Type) (st1 st2 : State) (c : Controller R) :
  timeout st1 = 0%N \/ timeout st2 = 0%N \/ timeout st1 = timeout st2 ->
  opts st1 (opts st2 c) = opts st2 (opts st1 c).
Proof.
  intros H. destruct c as [[d i w] r]. unfold opts.
  destruct (dryRun st1), (dryRun st2), (useLedgerWallet st1),
    (useLedgerWallet st2);
    destruct (N.ltb_spec 0 (timeout st1)), (N.ltb_spec 0 (timeout st2));
    cbn; try reflexivity;
    destruct H as [H|[H|H]]; try lia; rewrite H; reflexivity.
Qed.

(* =================================================================== *)
(** ** The warning as it reaches standard error *)
(* =================================================================== *)

Lemma append_assoc (a b c : string) : (a ++ b) ++ c = a ++ (b ++ c).
Proof.
  induction a as [|x a IH]; cbn [append]; [reflexivity|]. now rewrite IH.
Qed.

Lemma occursb_false (c : ascii) (s : string) :
  occursb c s = false -> ~ occurs c s.
Proof.
  induction s as [|a s IH]; cbn [occursb occurs]; [intros _ H; exact H|].
  intros H. apply orb_false_iff in H. destruct H as [Ha Hs].
  apply Ascii.eqb_neq in Ha. intros [E|E]; [contradiction|].
  exact (IH Hs E).
Qed.

Lemma occurs_app_inv (c : ascii) (s t : string) :
  occurs c (s ++ t) -> occurs c s \/ occurs c t.
Proof.
  induction s as [|a s IH]; cbn [append occurs].
  - intros H. right. exact H.
  - intros [H|H].
    + left. left. exact H.
    + destruct (IH H) as [H'|H']; [left; right; exact H' | right; exact H'].
Qed.

Lemma not_occurs_app (c : ascii) (s t : string) :
  ~ occurs c s -> ~ occurs c t -> ~ occurs c (s ++ t).
Proof.
  intros Hs Ht H. destruct (occurs_app_inv _ _ _ H); contradiction.
Qed.






(** X4.  The comparison is between exactly 8 bytes of the commit hash and
    the whole second piece of the stamp.  A build whose stamp carries a
    commit piece that is not 8 bytes long is therefore never reported up to
    date: with a commit hash of 8 bytes or more it is reported outdated,
    the warning format handed to the formatter for standard error and for
    the error returned; with a shorter one the slice panics. *)
Theorem getGitVersion_outdated_unless_8_bytes
    (st : State) (resp respTag : Response)
    (release : GitHubRelease) (releaseTag : GitHubTag) (commit1 : string) :
  http_get versionLink = Some resp ->
  StatusCode resp = 200%Z ->
  unmarshalRelease (Body resp) = inr release ->
  http_get (versionTagLink ++ TagName release) = Some respTag ->
  StatusCode respTag = 200%Z ->
  unmarshalTag (Body respTag) = inr releaseTag ->
  index_at (Split (VersionWrapDump st) "-") 1 = Some commit1 ->
  String.length commit1 <> 8 ->
  (8 <= String.length (SHA releaseTag) ->
     getGitVersion st =
     (Returned
        (TagName release,
         Some (Sprintf0
                 ("Warning: Using outdated version. Redownload to upgrade to "
                  ++ TagName release ++ nl))),
      emits
        [EvHttpGet versionLink;
         EvHttpGet (versionTagLink ++ TagName release);
         EvStderr
           (Sprintf0
              (RedString
                 ("Warning: Using outdated version. Redownload to upgrade to "
                  ++ TagName release ++ nl)));
         EvBodyClose versionLink; EvBodyClose versionLink] st)) /\
  (String.length (SHA releaseTag) < 8 ->
     getGitVersion st =
     (Panicked SliceBoundsOutOfRange,
      emits
        [EvHttpGet versionLink;
         EvHttpGet (versionTagLink ++ TagName release);
         EvBodyClose versionLink; EvBodyClose versionLink] st)) /\
  (forall tag : string, fst (getGitVersion st) <> Returned (tag, None)).
Proof.
  intros H1 H2 H3 H4 H5 H6 H8 H9.
  rewrite (getGitVersion_reaches st _ _ _ _ H1 H2 H3 H4 H5 H6).
  cbv zeta. rewrite H8.
  assert (Hlong : 8 <= String.length (SHA releaseTag) ->
                  negb (String.eqb (substring 0 8 (SHA releaseTag)) commit1)
                  = true).
  { intros H7.
    assert (Hne : substring 0 8 (SHA releaseTag) <> commit1).
    { intros E. apply H9. rewrite <- E. now apply substring_length. }
    apply String.eqb_neq in Hne. now rewrite Hne. }
  split; [|split].
  - intros H7. rewrite (slice_to_long _ _ H7), (Hlong H7). reflexivity.
  - intros H7. rewrite (slice_to_short _ _ H7). reflexivity.
  - intros tag.
    destruct (Nat.le_gt_cases 8 (String.length (SHA releaseTag))) as [H7|H7].
    + rewrite (slice_to_long _ _ H7), (Hlong H7). cbn [fst]. congruence.
    + rewrite (slice_to_short _ _ H7). cbn [fst]. discriminate.
Qed.

(** X8.  The formatter copies a format without percent sign as it is and
    the colouring wraps its text in escape sequences.  When the root
    command fails, the build is outdated (the comparison is reached and the
    two sides differ) and the name of the latest tag holds no percent sign,
    standard error receives, in this order, the warning in red, which reads
    [Warning: Using outdated version. Redownload to upgrade to] followed by
    the tag name, then the error under the build stamp as it was, then the
    hint; [Execute] exits with status 1 and the build stamp is not
    changed. *)
Theorem Execute_failure_outdated
    (pre post : string) (st st1 : State) (e : error)
    (resp respTag : Response)
    (release : GitHubRelease) (releaseTag : GitHubTag)
    (sha8 commit1 : string) :
  (forall s : string, ~ occurs "%"%char s -> Sprintf0 s = s) ->
  (forall s : string, RedString s = pre ++ s ++ post) ->
  ~ occurs "%"%char pre ->
  ~ occurs "%"%char post ->
  cobraExecute (set_RootCmd (set_SilenceErrors true (RootCmd st)) st) =
    (Returned (Some e), st1) ->
  http_get versionLink = Some resp ->
  StatusCode resp = 200%Z ->
  unmarshalRelease (Body resp) = inr release ->
  http_get (versionTagLink ++ TagName release) = Some respTag ->
  StatusCode respTag = 200%Z ->
  unmarshalTag (Body respTag) = inr releaseTag ->
  slice_to 8 (SHA releaseTag) = Some sha8 ->
  index_at (Split (VersionWrapDump st1) "-") 1 = Some commit1 ->
  sha8 <> commit1 ->
  ~ occurs "%"%char (TagName release) ->
  Execute st =
  (Exited 1%Z,
   emits
     [EvHttpGet versionLink;
      EvHttpGet (versionTagLink ++ TagName release);
      EvStderr
        (pre ++
         ("Warning: Using outdated version. Redownload to upgrade to "
          ++ TagName release ++ nl) ++ post);
      EvBodyClose versionLink; EvBodyClose versionLink;
      EvStderr (Sprintf0 (errorLine e (VersionWrapDump st1)));
      EvStderr hintLine] st1) /\
  Contains
    (pre ++
     ("Warning: Using outdated version. Redownload to upgrade to "
      ++ TagName release ++ nl) ++ post)
    (TagName release) = true.
Proof.
  intros Hfmt Hred Hpre Hpost H0 H1 H2 H3 H4 H5 H6 H7 H8 H9 Htag.
  pose proof (getGitVersion_reaches st1 _ _ _ _ H1 H2 H3 H4 H5 H6) as Hg.
  cbv zeta in Hg. rewrite H7, H8 in Hg.
  apply String.eqb_neq in H9. rewrite H9 in Hg. cbn [negb] in Hg.
  rewrite (Execute_on_error _ _ _ _ _ _ H0 Hg).
  rewrite emits_emits, Hred.
  assert (Hw : ~ occurs "%"%char (warnMsg (TagName release))).
  { unfold warnMsg. apply not_occurs_app.
    - apply occursb_false; reflexivity.
    - apply not_occurs_app; [exact Htag | apply occursb_false; reflexivity]. }
  rewrite (Hfmt (pre ++ warnMsg (TagName release) ++ post)).
  2: { apply not_occurs_app; [exact Hpre|].
       apply not_occurs_app; [exact Hw | exact Hpost]. }
  split; [reflexivity|].
  change ("Warning: Using outdated version. Redownload to upgrade to "
          ++ TagName release ++ nl)
    with (warnMsg (TagName release)).
  unfold warnMsg.
  rewrite <- (append_assoc pre), !append_assoc, <- (append_assoc pre).
  apply Contains_app.
Qed.

End Program.

(* ===================================================================== *)
(** * The program on the sample surroundings *)
(* ===================================================================== *)

(** C3, on a run without network.  The request to the release endpoint
    yields no response, and [getGitVersion] panics on the nil pointer
    instead of returning an empty tag and [could not fetch version]. *)
Example getGitVersion_offline_panics :
  getGitVersion Sample.offline Sample.decodeRelease Sample.decodeTag
    Sample.plain Sample.plain (Sample.stamped "v1-abcdef12") =
  (Panicked NilDereference,
   emits [EvHttpGet versionLink] (Sample.stamped "v1-abcdef12")).
Proof. reflexivity. Qed.

(** C7, on a run without network.  The root command fails, the release
    check panics, and [Execute] ends in that panic: nothing is written to
    standard error by the program and the exit status is not 1. *)
Example Execute_offline_panics :
  let run :=
    Execute Sample.offline Sample.decodeRelease Sample.decodeTag
      Sample.plain Sample.plain (Sample.failing "connection refused")
      (Sample.stamped "v1-abcdef12") in
  fst run = Panicked NilDereference /\
  exitStatus (fst run) = 2%Z /\
  stderr_of (trace (snd run)) = [].
Proof. repeat split. Qed.

(** The release endpoint answers 404: an empty tag and the error
    [could not fetch version], the response body closed. *)
Example getGitVersion_not_found :
  getGitVersion Sample.notFound Sample.decodeRelease Sample.decodeTag
    Sample.plain Sample.plain (Sample.stamped "v1-abcdef12") =
  (Returned (EmptyString, Some "could not fetch version"),
   emits [EvHttpGet versionLink; EvBodyClose versionLink]
     (Sample.stamped "v1-abcdef12")).
Proof. reflexivity. Qed.

(** The root command succeeds: [Execute] returns, no request is made and
    nothing is written; the process ends with status 0. *)
Example Execute_succeeding :
  let run :=
    Execute Sample.offline Sample.decodeRelease Sample.decodeTag
      Sample.plain Sample.plain Sample.succeeding
      (Sample.stamped "v1-abcdef12") in
  fst run = Returned tt /\
  exitStatus (fst run) = 0%Z /\
  trace (snd run) = [].
Proof. repeat split. Qed.

(** C4, as stated, fails: with the timeout flag at 0, a controller that
    waits five seconds still waits five seconds after [opts]. *)
Lemma opts_timeout_zero_still_waits :
  ~ (timeout Sample.noWait = 0%N ->
     ConfirmationWaitTime (Behavior (opts Sample.noWait Sample.patient)) = 0%N).
Proof. intros H. specialize (H eq_refl). discriminate H. Qed.

Lemma opts_timeout_zero_keeps_wait_witness :
  timeout Sample.noWait = 0%N /\
  ConfirmationWaitTime (Behavior (opts Sample.noWait Sample.patient)) = 5%N.
Proof.
  split; [reflexivity|].
  apply (opts_timeout_zero_keeps_wait unit Sample.noWait Sample.patient).
  reflexivity.
Defined.

Lemma findAddress_resolves_witness :
  exists a e st',
    findAddress Sample.parse Sample.lookup "bob" Sample.bareNode =
      (Returned (a, e), st') /\
    e = Some "Invalid address/Invalid account name: bob" /\
    st' = emit (EvStoreLookup "bob") Sample.bareNode.
Proof.
  destruct (findAddress_resolves Sample.parse Sample.lookup "bob" Sample.bareNode)
    as (a & e & st' & Hrun & _ & _ & Hlook & _ & Hfail).
  exists a, e, st'. split; [exact Hrun|]. split.
  - apply Hfail; discriminate.
  - apply Hlook; discriminate.
Defined.

Lemma preRun_normalizes_endpoint_witness :
  node (snd (PersistentPreRunE Sample.parse Sample.lookup Sample.start_ok
               Sample.bareNode)) = "localhost:50051" /\
  node (snd (PersistentPreRunE Sample.parse Sample.lookup Sample.start_ok
               (initState "grpc.trongrid.io:50051"))) = "grpc.trongrid.io:50051".
Proof.
  pose proof (preRun_normalizes_endpoint Sample.parse Sample.lookup
                Sample.start_ok) as [Habsent Hpresent].
  split.
  - apply (Habsent Sample.bareNode). simpl. intuition discriminate.
  - apply (Hpresent (initState "grpc.trongrid.io:50051")). simpl. tauto.
Defined.

Lemma getGitVersion_compares_witness :
  getGitVersion (Sample.online "abcdef1234") Sample.decodeRelease
    Sample.decodeTag Sample.plain Sample.plain (Sample.stamped "v1-0badc0de") =
  (Returned ("v2", Some (warnMsg "v2")),
   emits
     [EvHttpGet versionLink; EvHttpGet (versionTagLink ++ "v2");
      EvStderr (warnMsg "v2");
      EvBodyClose versionLink; EvBodyClose versionLink]
     (Sample.stamped "v1-0badc0de")) /\
  getGitVersion (Sample.online "abcdef1234") Sample.decodeRelease
    Sample.decodeTag Sample.plain Sample.plain (Sample.stamped "v1-abcdef12") =
  (Returned ("v2", None),
   emits
     [EvHttpGet versionLink; EvHttpGet (versionTagLink ++ "v2");
      EvBodyClose versionLink; EvBodyClose versionLink]
     (Sample.stamped "v1-abcdef12")).
Proof.
  split.
  - apply (getGitVersion_compares (Sample.online "abcdef1234")
             Sample.decodeRelease Sample.decodeTag Sample.plain Sample.plain
             (Sample.stamped "v1-0badc0de")
             (mkResponse 200 "v2") (mkResponse 200 "abcdef1234")
             (mkRelease false "v2" "master" "2020-01-01T00:00:00Z" [])
             (mkTag "refs/tags/v2" "node" "url" "abcdef1234")
             "abcdef12" "0badc0de");
      try reflexivity.
    discriminate.
  - apply (getGitVersion_compares (Sample.online "abcdef1234")
             Sample.decodeRelease Sample.decodeTag Sample.plain Sample.plain
             (Sample.stamped "v1-abcdef12")
             (mkResponse 200 "v2") (mkResponse 200 "abcdef1234")
             (mkRelease false "v2" "master" "2020-01-01T00:00:00Z" [])
             (mkTag "refs/tags/v2" "node" "url" "abcdef1234")
             "abcdef12" "abcdef12");
      reflexivity.
Defined.

Lemma comparison_faults_witness :
  fst (getGitVersion (Sample.online "abcdef1") Sample.decodeRelease
         Sample.decodeTag Sample.plain Sample.plain
         (Sample.stamped "v1-abcdef12")) = Panicked SliceBoundsOutOfRange /\
  fst (getGitVersion (Sample.online "abcdef1234") Sample.decodeRelease
         Sample.decodeTag Sample.plain Sample.plain
         (Sample.stamped EmptyString)) = Panicked IndexOutOfRange /\
  exists r,
    fst (getGitVersion (Sample.online "abcdef1234") Sample.decodeRelease
           Sample.decodeTag Sample.plain Sample.plain
           (Sample.stamped "v1-abcdef12")) = Returned r.
Proof.
  split; [|split].
  - apply (comparison_faults (Sample.online "abcdef1")
             Sample.decodeRelease Sample.decodeTag Sample.plain Sample.plain
             (Sample.stamped "v1-abcdef12")
             (mkResponse 200 "v2") (mkResponse 200 "abcdef1")
             (mkRelease false "v2" "master" "2020-01-01T00:00:00Z" [])
             (mkTag "refs/tags/v2" "node" "url" "abcdef1"));
      try reflexivity.
    simpl. lia.
  - apply (comparison_faults (Sample.online "abcdef1234")
             Sample.decodeRelease Sample.decodeTag Sample.plain Sample.plain
             (Sample.stamped EmptyString)
             (mkResponse 200 "v2") (mkResponse 200 "abcdef1234")
             (mkRelease false "v2" "master" "2020-01-01T00:00:00Z" [])
             (mkTag "refs/tags/v2" "node" "url" "abcdef1234"));
      try reflexivity.
    + simpl. lia.
    + simpl. tauto.
  - apply (comparison_faults (Sample.online "abcdef1234")
             Sample.decodeRelease Sample.decodeTag Sample.plain Sample.plain
             (Sample.stamped "v1-abcdef12")
             (mkResponse 200 "v2") (mkResponse 200 "abcdef1234")
             (mkRelease false "v2" "master" "2020-01-01T00:00:00Z" [])
             (mkTag "refs/tags/v2" "node" "url" "abcdef1234"));
      try reflexivity.
    + simpl. lia.
    + simpl. tauto.
Defined.


(* ===================================================================== *)
(** * Further runs on the sample surroundings *)
(* ===================================================================== *)

Lemma getGitVersion_decode_errors_witness :
  getGitVersion (Sample.online "abcdef1234") Sample.undecodable
    Sample.decodeTag Sample.plain Sample.plain (Sample.stamped "v1-abcdef12") =
  (Returned (EmptyString, Some "unexpected end of JSON input"),
   emits [EvHttpGet versionLink; EvBodyClose versionLink]
     (Sample.stamped "v1-abcdef12")) /\
  getGitVersion (Sample.online "abcdef1234") Sample.decodeRelease
    Sample.undecodable Sample.plain Sample.plain (Sample.stamped "v1-abcdef12") =
  (Returned (EmptyString, Some "unexpected end of JSON input"),
   emits [EvHttpGet versionLink; EvHttpGet (versionTagLink ++ "v2");
          EvBodyClose versionLink; EvBodyClose versionLink]
     (Sample.stamped "v1-abcdef12")).
Proof.
  split.
  - apply (getGitVersion_decode_errors (Sample.online "abcdef1234")
             Sample.undecodable Sample.decodeTag Sample.plain Sample.plain
             (Sample.stamped "v1-abcdef12") (mkResponse 200 "v2")
             "unexpected end of JSON input"); reflexivity.
  - apply (proj2 (getGitVersion_decode_errors (Sample.online "abcdef1234")
             Sample.decodeRelease Sample.undecodable Sample.plain Sample.plain
             (Sample.stamped "v1-abcdef12") (mkResponse 200 "v2")
             "unexpected end of JSON input" eq_refl eq_refl)
             (mkRelease false "v2" "master" "2020-01-01T00:00:00Z" [])
             (mkResponse 200 "abcdef1234")); reflexivity.
Defined.

Lemma getGitVersion_tag_unavailable_witness :
  getGitVersion Sample.releaseOnly Sample.decodeRelease Sample.decodeTag
    Sample.plain Sample.plain (Sample.stamped "v1-abcdef12") =
  (Returned (EmptyString, Some "could not fetch version"),
   emits [EvHttpGet versionLink; EvHttpGet (versionTagLink ++ "v2");
          EvBodyClose versionLink; EvBodyClose versionLink]
     (Sample.stamped "v1-abcdef12")).
Proof.
  apply (getGitVersion_tag_unavailable Sample.releaseOnly Sample.decodeRelease
           Sample.decodeTag Sample.plain Sample.plain
           (Sample.stamped "v1-abcdef12") (mkResponse 200 "v2")
           (mkRelease false "v2" "master" "2020-01-01T00:00:00Z" []));
    try reflexivity.
  left. reflexivity.
Defined.

Lemma Execute_success_is_quiet_witness :
  Execute Sample.offline Sample.decodeRelease Sample.decodeTag
    Sample.plain Sample.plain Sample.succeeding (Sample.stamped "v1-abcdef12") =
  (Returned tt,
   set_RootCmd (set_SilenceErrors true RootCmd_literal)
     (Sample.stamped "v1-abcdef12")).
Proof.
  apply (Execute_success_is_quiet Sample.offline Sample.decodeRelease
           Sample.decodeTag Sample.plain Sample.plain Sample.succeeding
           (Sample.stamped "v1-abcdef12")).
  reflexivity.
Defined.

Lemma Execute_failure_never_returns_witness :
  exitStatus
    (fst (Execute Sample.offline Sample.decodeRelease Sample.decodeTag
            Sample.plain Sample.plain (Sample.failing "boom")
            (Sample.stamped "v1-abcdef12"))) = 1%Z \/
  exitStatus
    (fst (Execute Sample.offline Sample.decodeRelease Sample.decodeTag
            Sample.plain Sample.plain (Sample.failing "boom")
            (Sample.stamped "v1-abcdef12"))) = 2%Z.
Proof.
  apply (Execute_failure_never_returns Sample.offline Sample.decodeRelease
           Sample.decodeTag Sample.plain Sample.plain (Sample.failing "boom")
           (Sample.stamped "v1-abcdef12")
           (set_RootCmd (set_SilenceErrors true RootCmd_literal)
              (Sample.stamped "v1-abcdef12"))
           "boom").
  reflexivity.
Defined.

Lemma Execute_failure_release_not_200_witness :
  stderr_of
    (trace (snd (Execute Sample.notFound Sample.decodeRelease Sample.decodeTag
                   Sample.plain Sample.plain (Sample.failing "boom")
                   (Sample.stamped "v1-abcdef12")))) =
  ["commit: v1-abcdef12, error: boom" ++ nl; hintLine].
Proof.
  rewrite (Execute_failure_release_not_200 Sample.notFound
             Sample.decodeRelease Sample.decodeTag Sample.plain Sample.plain
             (Sample.failing "boom") (Sample.stamped "v1-abcdef12")
             (set_RootCmd (set_SilenceErrors true RootCmd_literal)
                (Sample.stamped "v1-abcdef12"))
             "boom" (mkResponse 404 "Not Found")).
  - reflexivity.
  - reflexivity.
  - reflexivity.
  - discriminate.
Defined.

Lemma preRun_skips_signer_witness :
  fst (PersistentPreRunE Sample.parse Sample.lookup Sample.start_refused
         (Sample.signedBy "alice")) = Returned (Some "connection refused") /\
  signerAddress
    (snd (PersistentPreRunE Sample.parse Sample.lookup Sample.start_refused
            (Sample.signedBy "alice"))) = zeroAddress.
Proof.
  destruct (preRun_skips_signer Sample.parse Sample.lookup
              Sample.start_refused (Sample.signedBy "alice"))
    as (H1 & H2 & _).
  - left. discriminate.
  - split; [exact H1 | exact H2].
Defined.

Lemma preRun_resolves_signer_witness :
  fst (PersistentPreRunE Sample.parse Sample.lookup Sample.start_ok
         (Sample.signedBy "bob")) =
    Returned (Some "Invalid address/Invalid account name: bob") /\
  signerAddress
    (snd (PersistentPreRunE Sample.parse Sample.lookup Sample.start_ok
            (Sample.signedBy "alice"))) = mkTronAddress Sample.aliceAddress.
Proof.
  split.
  - apply (preRun_resolves_signer Sample.parse Sample.lookup Sample.start_ok
             (Sample.signedBy "bob")); try reflexivity; discriminate.
  - apply (preRun_resolves_signer Sample.parse Sample.lookup Sample.start_ok
             (Sample.signedBy "alice")); try reflexivity; discriminate.
Defined.

Lemma opts_without_flags_witness :
  opts Sample.noneSet Sample.cautious = Sample.cautious.
Proof.
  apply (opts_without_flags unit Sample.noneSet Sample.cautious);
    reflexivity.
Defined.

Lemma opts_never_switches_off_witness :
  DryRun (Behavior (opts Sample.noneSet Sample.cautious)) = true /\
  SigningImpl (Behavior (opts Sample.noneSet Sample.cautious)) = Ledger.
Proof.
  destruct (opts_never_switches_off unit Sample.noneSet Sample.cautious)
    as (H1 & H2 & _).
  split; [apply H1 | apply H2]; reflexivity.
Defined.

Lemma opts_commute_witness :
  opts Sample.allSet (opts Sample.noWait Sample.patient) =
  opts Sample.noWait (opts Sample.allSet Sample.patient).
Proof.
  apply (opts_commute unit Sample.allSet Sample.noWait Sample.patient).
  right. left. reflexivity.
Defined.





Lemma getGitVersion_outdated_unless_8_bytes_witness :
  getGitVersion (Sample.online "abcdef1234") Sample.decodeRelease
    Sample.decodeTag Sample.plain Sample.plain (Sample.stamped "v1-abcdef1") =
  (Returned
     ("v2",
      Some ("Warning: Using outdated version. Redownload to upgrade to v2" ++ nl)),
   emits
     [EvHttpGet versionLink; EvHttpGet (versionTagLink ++ "v2");
      EvStderr
        ("Warning: Using outdated version. Redownload to upgrade to v2" ++ nl);
      EvBodyClose versionLink; EvBodyClose versionLink]
     (Sample.stamped "v1-abcdef1")) /\
  getGitVersion (Sample.online "abc") Sample.decodeRelease
    Sample.decodeTag Sample.plain Sample.plain (Sample.stamped "v1-abcdef1") =
  (Panicked SliceBoundsOutOfRange,
   emits
     [EvHttpGet versionLink; EvHttpGet (versionTagLink ++ "v2");
      EvBodyClose versionLink; EvBodyClose versionLink]
     (Sample.stamped "v1-abcdef1")).
Proof.
  split.
  - apply (getGitVersion_outdated_unless_8_bytes (Sample.online "abcdef1234")
             Sample.decodeRelease Sample.decodeTag Sample.plain Sample.plain
             (Sample.stamped "v1-abcdef1")
             (mkResponse 200 "v2") (mkResponse 200 "abcdef1234")
             (mkRelease false "v2" "master" "2020-01-01T00:00:00Z" [])
             (mkTag "refs/tags/v2" "node" "url" "abcdef1234")
             "abcdef1");
      try reflexivity; simpl; lia.
  - apply (getGitVersion_outdated_unless_8_bytes (Sample.online "abc")
             Sample.decodeRelease Sample.decodeTag Sample.plain Sample.plain
             (Sample.stamped "v1-abcdef1")
             (mkResponse 200 "v2") (mkResponse 200 "abc")
             (mkRelease false "v2" "master" "2020-01-01T00:00:00Z" [])
             (mkTag "refs/tags/v2" "node" "url" "abc")
             "abcdef1");
      try reflexivity; simpl; lia.
Defined.

Lemma Execute_failure_outdated_witness :
  stderr_of
    (trace (snd (Execute (Sample.online "abcdef1234") Sample.decodeRelease
                   Sample.decodeTag Sample.plain Sample.red
                   (Sample.failing "boom") (Sample.stamped "v1-0badc0de")))) =
  [Sample.redOn ++
   "Warning: Using outdated version. Redownload to upgrade to v2" ++ nl ++
   Sample.redOff;
   "commit: v1-0badc0de, error: boom" ++ nl;
   hintLine].
Proof.
  destruct (Execute_failure_outdated (Sample.online "abcdef1234")
              Sample.decodeRelease Sample.decodeTag Sample.plain Sample.red
              (Sample.failing "boom") Sample.redOn Sample.redOff
              (Sample.stamped "v1-0badc0de")
              (set_RootCmd (set_SilenceErrors true RootCmd_literal)
                 (Sample.stamped "v1-0badc0de"))
              "boom" (mkResponse 200 "v2") (mkResponse 200 "abcdef1234")
              (mkRelease false "v2" "master" "2020-01-01T00:00:00Z" [])
              (mkTag "refs/tags/v2" "node" "url" "abcdef1234")
              "abcdef12" "0badc0de") as (Hrun & _).
  - intros s _. reflexivity.
  - reflexivity.
  - apply occursb_false. reflexivity.
  - apply occursb_false. reflexivity.
  - reflexivity.
  - reflexivity.
  - reflexivity.
  - reflexivity.
  - reflexivity.
  - reflexivity.
  - reflexivity.
  - reflexivity.
  - reflexivity.
  - discriminate.
  - apply occursb_false. reflexivity.
  - rewrite Hrun. reflexivity.
Defined.
